(* Verification of the request-authentication and response-header code of
   lockdev-hippa-app (src/utils/security.py, src/routes/api.py, src/main.py). *)

From Stdlib Require Import String Ascii List ZArith Bool Lia.
Import ListNotations.
Open Scope string_scope.
Open Scope Z_scope.
Set Warnings "-register-all".

(* ------------------------------------------------------------------------- *)
(** * Values and headers *)

(** A Python [float] as [int()] reads it: a finite value by its
    truncation toward zero, an infinity, or NaN ([json.loads] accepts
    [Infinity], [-Infinity] and [NaN]). *)
Inductive pyfloat : Type :=
| FFinite (trunc : Z)
| FInf (negative : bool)
| FNaN.

(** The values [json.loads] produces: the claims of a token payload, and
    response bodies. Strings are sequences of code points below 256. *)
Inductive json : Type :=
| JNull
| JBool (b : bool)
| JInt (z : Z)
| JStr (s : string)
| JObj (fields : list (string * json))
| JFloat (f : pyfloat)
| JList (items : list json).

(** Python's [dict.get] on a dict kept as an association list. *)
Fixpoint dict_get {A} (k : string) (d : list (string * A)) : option A :=
  match d with
  | [] => None
  | (k', v) :: t => if String.eqb k' k then Some v else dict_get k t
  end.

(** ASCII lower-casing, as [str.lower] on header names. *)
Definition lower_ascii (c : ascii) : ascii :=
  let n := nat_of_ascii c in
  if (65 <=? n)%nat && (n <=? 90)%nat then ascii_of_nat (n + 32) else c.

Fixpoint lower (s : string) : string :=
  match s with
  | EmptyString => EmptyString
  | String c t => String (lower_ascii c) (lower t)
  end.

(** Starlette keeps raw headers as a list of (lower-cased name, value). *)
Definition header_list := list (string * string).

(** [MutableHeaders.__setitem__]: the first entry with that name is
    replaced in place, later entries with that name are deleted, and if
    there was none the pair is appended at the end. *)
Fixpoint setitem_raw (k v : string) (l : header_list) : header_list :=
  match l with
  | [] => [(k, v)]
  | (k', v') :: t =>
      if String.eqb k' k
      then (k, v) :: filter (fun p => negb (String.eqb (fst p) k)) t
      else (k', v') :: setitem_raw k v t
  end.

Definition setitem (key value : string) (l : header_list) : header_list :=
  setitem_raw (lower key) value l.

(** [MutableHeaders.get]: the value of the first entry with that name. *)
Definition header_get (key : string) (l : header_list) : option string :=
  dict_get (lower key) l.

(** A response as the framework sends it. *)
Record Response : Type := mkResponse {
  status_code : Z;
  headers : header_list;
  body : json
}.

Definition with_headers (r : Response) (h : header_list) : Response :=
  mkResponse (status_code r) h (body r).

(* ------------------------------------------------------------------------- *)
(** * The response envelope: [setup_security_headers] *)

Definition CSP_VALUE : string :=
  "default-src 'self'; " ++
  "script-src 'self' 'unsafe-inline'; " ++
  "style-src 'self' 'unsafe-inline'; " ++
  "img-src 'self' data: https:; " ++
  "connect-src 'self'; " ++
  "font-src 'self'; " ++
  "object-src 'none'; " ++
  "media-src 'self'; " ++
  "frame-src 'none';".

Definition PERMISSIONS_VALUE : string :=
  "geolocation=(), microphone=(), camera=(), " ++
  "payment=(), usb=(), screen-wake-lock=(), " ++
  "web-share=(), cross-origin-isolated=()".

(** The assignments of [setup_security_headers], in source order. *)
Definition security_headers : list (string * string) :=
  [ ("X-Content-Type-Options", "nosniff");
    ("X-Frame-Options", "DENY");
    ("X-XSS-Protection", "1; mode=block");
    ("Strict-Transport-Security", "max-age=31536000; includeSubDomains");
    ("Content-Security-Policy", CSP_VALUE);
    ("Referrer-Policy", "strict-origin-when-cross-origin");
    ("Permissions-Policy", PERMISSIONS_VALUE) ].

(** Each [response.headers[k] = v] in turn, first assignment first. *)
Definition apply_headers (hs : list (string * string)) (l : header_list)
  : header_list :=
  fold_left (fun acc kv => setitem (fst kv) (snd kv) acc) hs l.

Definition setup_security_headers (response : Response) : Response :=
  with_headers response (apply_headers security_headers (headers response)).

(* ------------------------------------------------------------------------- *)
(** * Exceptions, as a small error monad *)

Inductive exn : Type :=
| HTTPException (status : Z) (detail : string) (hdrs : list (string * string))
| JWTError (msg : string)        (* jose.JWTError and its subclasses *)
| AttributeError (msg : string)
| TypeError (msg : string)
| OverflowError (msg : string).

Inductive result (A : Type) : Type :=
| Ok (a : A)
| Raise (e : exn).
Arguments Ok {A} a.
Arguments Raise {A} e.

Definition bind {A B} (m : result A) (k : A -> result B) : result B :=
  match m with
  | Ok a => k a
  | Raise e => Raise e
  end.

Notation "x <- m ;; k" := (bind m (fun x => k))
  (at level 61, m at next level, right associativity).

(* ------------------------------------------------------------------------- *)
(** * Tokens and [jose.jwt] *)

(** A bearer token as [jwt.decode] sees it: [Malformed raw] is a string
    on which jose fails before the claims are read (segments that do not
    decode, a header that is not a JSON object, a payload that is not a
    JSON object); the empty credential is [Malformed ""]. [Signed alg key
    payload] is a token whose header names [alg], signed with the HMAC key
    [key], whose payload decodes to the dict [payload] (distinct keys, in
    order). For HMAC tokens the signature verifies under a key exactly when
    it was made with that key. *)
Inductive token : Type :=
| Malformed (raw : string)
| Signed (alg : string) (key : string) (payload : list (string * json)).

(** [SECRET_KEY = os.getenv("JWT_SECRET", ...)]. The key is taken to be one
    that jose accepts as an HMAC secret (not a PEM public key or an SSH
    key, which jose refuses on every decode). *)
Definition SECRET_KEY (env : string -> option string) : string :=
  match env "JWT_SECRET" with
  | Some s => s
  | None => "your-secret-key-change-in-production"
  end.

Definition ALGORITHM : string := "HS256".
Definition ACCESS_TOKEN_EXPIRE_MINUTES : Z := 30.

(** ** Python's [int()] on a decoded JSON value *)

(** [str.isspace] on code points below 256. *)
Definition is_py_space (c : ascii) : bool :=
  let n := nat_of_ascii c in
  ((9 <=? n)%nat && (n <=? 13)%nat) || ((28 <=? n)%nat && (n <=? 32)%nat) ||
  (n =? 133)%nat || (n =? 160)%nat.

Fixpoint drop_spaces (l : list ascii) : list ascii :=
  match l with
  | c :: t => if is_py_space c then drop_spaces t else l
  | [] => []
  end.

(** [str.strip()] *)
Definition strip (l : list ascii) : list ascii :=
  rev (drop_spaces (rev (drop_spaces l))).

Definition digit_value (c : ascii) : option Z :=
  let n := nat_of_ascii c in
  if (48 <=? n)%nat && (n <=? 57)%nat then Some (Z.of_nat n - 48) else None.

(** Digits after a first digit, an underscore being allowed only between
    two digits; returns the value and the number of digits. *)
Fixpoint parse_digits (acc count : Z) (l : list ascii) : option (Z * Z) :=
  match l with
  | [] => Some (acc, count)
  | c :: t =>
      match digit_value c with
      | Some d => parse_digits (acc * 10 + d) (count + 1) t
      | None =>
          if Ascii.eqb c "_" then
            match t with
            | c' :: t' =>
                match digit_value c' with
                | Some d => parse_digits (acc * 10 + d) (count + 1) t'
                | None => None
                end
            | [] => None
            end
          else None
      end
  end.

Definition parse_unsigned (l : list ascii) : option (Z * Z) :=
  match l with
  | c :: t => match digit_value c with
              | Some d => parse_digits d 1 t
              | None => None
              end
  | [] => None
  end.

(** [sys.get_int_max_str_digits()]: the default limit on the digits of an
    integer converted from or to a decimal string (Python 3.11 and later). *)
Definition MAX_STR_DIGITS : Z := 4300.

(** [int(s)] for a string: surrounding whitespace, an optional sign, then
    decimal digits; [None] is the [ValueError]. *)
Definition py_int_of_string (s : string) : option Z :=
  let l := strip (list_ascii_of_string s) in
  let '(sign, digits) :=
    match l with
    | c :: t => if Ascii.eqb c "-" then (-1, t)
                else if Ascii.eqb c "+" then (1, t) else (1, l)
    | [] => (1, l)
    end in
  match parse_unsigned digits with
  | Some (z, count) => if MAX_STR_DIGITS <? count then None else Some (sign * z)
  | None => None
  end.

Inductive int_result : Type :=
| IntOk (z : Z)
| IntValueError
| IntTypeError
| IntOverflowError.

(** [int(v)]: a bool is 0 or 1, a float is truncated, a string is parsed;
    [None], a list or a dict is a [TypeError], an infinity an
    [OverflowError], NaN a [ValueError]. *)
Definition py_int (v : json) : int_result :=
  match v with
  | JNull => IntTypeError
  | JBool b => IntOk (if b then 1 else 0)
  | JInt z => IntOk z
  | JFloat (FFinite t) => IntOk t
  | JFloat (FInf _) => IntOverflowError
  | JFloat FNaN => IntValueError
  | JStr s => match py_int_of_string s with
              | Some z => IntOk z
              | None => IntValueError
              end
  | JList _ => IntTypeError
  | JObj _ => IntTypeError
  end.

(** Whether [int()] on a claim (absent: not called) raises neither a
    [TypeError] nor an [OverflowError]. *)
Definition int_safe (v : option json) : bool :=
  match v with
  | None => true
  | Some v => match py_int v with
              | IntTypeError | IntOverflowError => false
              | _ => true
              end
  end.

(** ** [jose.jwt] *)

(** [try: int(claims[name]) except ValueError: raise JWTClaimsError(msg)]:
    only the [ValueError] is turned into a [JWTError]. *)
Definition int_claim (msg : string) (v : json) : result Z :=
  match py_int v with
  | IntOk z => Ok z
  | IntValueError => Raise (JWTError msg)
  | IntTypeError =>
      Raise (TypeError "int() argument must be a string, a bytes-like object or a real number")
  | IntOverflowError => Raise (OverflowError "cannot convert float infinity to integer")
  end.

(** [_validate_iat] *)
Definition validate_iat (claims : list (string * json)) : result unit :=
  match dict_get "iat" claims with
  | None => Ok tt
  | Some v => _ <- int_claim "Issued At claim (iat) must be an integer." v ;; Ok tt
  end.

(** [_validate_nbf] with leeway 0. *)
Definition validate_nbf (now : Z) (claims : list (string * json)) : result unit :=
  match dict_get "nbf" claims with
  | None => Ok tt
  | Some v =>
      nbf <- int_claim "Not Before claim (nbf) must be an integer." v ;;
      if now <? nbf then Raise (JWTError "The token is not yet valid (nbf)") else Ok tt
  end.

(** [_validate_exp] with leeway 0. *)
Definition validate_exp (now : Z) (claims : list (string * json)) : result unit :=
  match dict_get "exp" claims with
  | None => Ok tt
  | Some v =>
      exp <- int_claim "Expiration Time claim (exp) must be an integer." v ;;
      if exp <? now then Raise (JWTError "Signature has expired.") else Ok tt
  end.

Definition is_str (v : json) : bool :=
  match v with JStr _ => true | _ => false end.

(** [_validate_aud] with [audience=None]: a string or a list of strings
    never contains [None], so any [aud] claim is rejected. *)
Definition validate_aud (claims : list (string * json)) : result unit :=
  match dict_get "aud" claims with
  | None => Ok tt
  | Some (JStr _) => Raise (JWTError "Invalid audience")
  | Some (JList items) =>
      if forallb is_str items then Raise (JWTError "Invalid audience")
      else Raise (JWTError "Invalid claim format in token")
  | Some _ => Raise (JWTError "Invalid claim format in token")
  end.

(** [_validate_sub] with [subject=None]: a present [sub] must be a string. *)
Definition validate_sub (claims : list (string * json)) : result unit :=
  match dict_get "sub" claims with
  | None => Ok tt
  | Some (JStr _) => Ok tt
  | Some _ => Raise (JWTError "Subject must be a string.")
  end.

(** [_validate_jti]: a present [jti] must be a string. *)
Definition validate_jti (claims : list (string * json)) : result unit :=
  match dict_get "jti" claims with
  | None => Ok tt
  | Some (JStr _) => Ok tt
  | Some _ => Raise (JWTError "JWT ID must be a string.")
  end.

(** [_validate_at_hash] with [access_token=None]. *)
Definition validate_at_hash (claims : list (string * json)) : result unit :=
  match dict_get "at_hash" claims with
  | None => Ok tt
  | Some _ => Raise (JWTError "No access_token provided to compare against at_hash claim.")
  end.

(** [_validate_claims] with the default options: [iss] is not checked
    when no issuer is given, and no claim is required. *)
Definition validate_claims (now : Z) (claims : list (string * json)) : result unit :=
  _ <- validate_iat claims ;;
  _ <- validate_nbf now claims ;;
  _ <- validate_exp now claims ;;
  _ <- validate_aud claims ;;
  _ <- validate_sub claims ;;
  _ <- validate_jti claims ;;
  validate_at_hash claims.

(** [json.loads] of the payload: an integer literal of more than
    [MAX_STR_DIGITS] digits raises [ValueError]. *)
Fixpoint json_loads_ok (v : json) : bool :=
  match v with
  | JInt z => Z.abs z <? 10 ^ MAX_STR_DIGITS
  | JObj fields =>
      (fix fields_ok (l : list (string * json)) :=
         match l with
         | [] => true
         | (_, x) :: t => json_loads_ok x && fields_ok t
         end) fields
  | JList items =>
      (fix items_ok (l : list json) :=
         match l with
         | [] => true
         | x :: t => json_loads_ok x && items_ok t
         end) items
  | _ => true
  end.

(** [jwt.decode(token, key, algorithms=...)] at time [now] (seconds):
    [jws.verify] checks the algorithm, then the signature; the payload is
    then loaded ([ValueError] becomes [JWTError]) and its claims
    validated. *)
Definition jwt_decode (tok : token) (key : string) (algorithms : list string)
  (now : Z) : result (list (string * json)) :=
  match tok with
  | Malformed _ => Raise (JWTError "Error decoding token headers.")
  | Signed alg k payload =>
      if negb (existsb (String.eqb alg) algorithms)
      then Raise (JWTError "The specified alg value is not allowed")
      else if negb (String.eqb k key)
      then Raise (JWTError "Signature verification failed.")
      else if negb (json_loads_ok (JObj payload))
      then Raise (JWTError "Invalid payload string")
      else
        _ <- validate_claims now payload ;;
        Ok payload
  end.

(** [dict.update] with one key: replaced in place, or appended. *)
Fixpoint dict_set {A} (k : string) (v : A) (d : list (string * A))
  : list (string * A) :=
  match d with
  | [] => [(k, v)]
  | (k', v') :: t =>
      if String.eqb k' k then (k, v) :: t else (k', v') :: dict_set k v t
  end.

(** [create_access_token(data, expires_delta)] at time [now]; a zero or
    absent delta falls back to the default lifetime ([if expires_delta:]).
    Times are whole seconds. The Python function raises instead of issuing
    a token when the expiry is outside [datetime]'s range or an integer of
    [data] has more than [MAX_STR_DIGITS] digits; the model covers the
    tokens it issues. *)
Definition create_access_token (secret : string) (now : Z)
  (data : list (string * json)) (expires_delta : option Z) : token :=
  let expire :=
    match expires_delta with
    | Some d => if d =? 0 then now + ACCESS_TOKEN_EXPIRE_MINUTES * 60
                else now + d
    | None => now + ACCESS_TOKEN_EXPIRE_MINUTES * 60
    end in
  Signed ALGORITHM secret (dict_set "exp" (JInt expire) data).

(* ------------------------------------------------------------------------- *)
(** * [HTTPBearer(auto_error=False)] *)

Record HTTPAuthorizationCredentials : Type := mkCredentials {
  scheme : string;
  credentials : token
}.

(** Whether the credential part of the header is the empty string. *)
Definition empty_credentials (tok : token) : bool :=
  match tok with
  | Malformed raw => String.eqb raw ""
  | Signed _ _ _ => false
  end.

(** [HTTPBearer.__call__] with [auto_error=False]: the [Authorization]
    header, split at its first space into the scheme and the credentials
    ([get_authorization_scheme_param]). A missing header, an empty scheme,
    empty credentials ([if not (authorization and scheme and credentials)])
    or a scheme other than bearer yields [None]. *)
Definition http_bearer (authorization : option (string * token))
  : option HTTPAuthorizationCredentials :=
  match authorization with
  | None => None
  | Some (sch, tok) =>
      if String.eqb sch "" || empty_credentials tok then None
      else if String.eqb (lower sch) "bearer" then Some (mkCredentials sch tok)
      else None
  end.

(* ------------------------------------------------------------------------- *)
(** * The auth gate: [get_current_user] and [require_auth] *)

(** The fields of the [User] model that the code sets; times in seconds. *)
Record User : Type := mkUser {
  id : string;
  email : string;
  created_at : Z;
  is_active : bool
}.

(** The database session handed to [get_current_user]: the rows of the
    users table it could be queried for. *)
Definition AsyncSession := list User.

Definition credentials_exception : exn :=
  HTTPException 401 "Could not validate credentials"
    [("WWW-Authenticate", "Bearer")].

(** [get_current_user] at time [now] ([datetime.utcnow()]), with signing
    key [secret]. [None] is Python's [None]: no identity. *)
Definition get_current_user (secret : string) (now : Z)
  (creds : option HTTPAuthorizationCredentials) (db : AsyncSession)
  : result (option User) :=
  match creds with
  | None => Ok None
  | Some c =>
      (* try: ... except JWTError: raise credentials_exception *)
      let tried :=
        match jwt_decode (credentials c) secret [ALGORITHM] now with
        | Raise (JWTError _) => Raise credentials_exception
        | Raise e => Raise e
        | Ok payload =>
            match dict_get "sub" payload with
            | Some (JStr user_id) => Ok user_id
            | _ => Raise credentials_exception
            end
        end in
      user_id <- tried ;;
      let user := mkUser user_id ("user" ++ user_id ++ "@example.com") now true in
      Ok (Some user)
  end.

(** [require_auth]; no route of the API depends on it. *)
Definition require_auth (current_user : option User) : result User :=
  match current_user with
  | None => Raise (HTTPException 401 "Authentication required"
                     [("WWW-Authenticate", "Bearer")])
  | Some u => Ok u
  end.

(* ------------------------------------------------------------------------- *)
(** * Route handlers (src/routes/api.py, src/routes/health.py) *)

(** The handlers receive what [get_current_user] returned, [None]
    included: their [User] annotation is not checked at run time, and the
    first [current_user.id] on [None] raises. Timestamps are rendered as
    the clock reading. *)
Definition none_id : exn :=
  AttributeError "'NoneType' object has no attribute 'id'".

Definition hello_world (current_user : option User) (now : Z) : result json :=
  Ok (JObj [("message", JStr "Hello from HIPAA-compliant healthcare API!");
            ("timestamp", JInt now);
            ("user_id", match current_user with
                        | Some u => JStr (id u)
                        | None => JNull
                        end)]).

Definition secure_endpoint (current_user : option User) (now : Z)
  : result json :=
  match current_user with
  | None => Raise none_id
  | Some u =>
      Ok (JObj [("message", JStr "This is a secure endpoint - you are authenticated!");
                ("timestamp", JInt now);
                ("user_id", JStr (id u))])
  end.

Definition get_current_user_info (current_user : option User) (db : AsyncSession)
  : result json :=
  match current_user with
  | None => Raise none_id
  | Some u =>
      Ok (JObj [("id", JStr (id u)); ("email", JStr (email u));
                ("created_at", JInt (created_at u));
                ("is_active", JBool (is_active u))])
  end.

Definition get_audit_log (current_user : option User) (limit : Z) (now : Z)
  : result json :=
  match current_user with
  | None => Raise none_id
  | Some u =>
      Ok (JObj [("message", JStr "Audit log functionality - placeholder");
                ("note", JStr "In production, this would return actual audit trail data");
                ("user_id", JStr (id u));
                ("timestamp", JInt now)])
  end.

Definition health_check (env : string -> option string) (now : Z) : json :=
  JObj [("status", JStr "healthy"); ("timestamp", JInt now);
        ("version", JStr "0.1.0");
        ("environment", JStr (match env "ENVIRONMENT" with
                              | Some e => e
                              | None => "development"
                              end))].

(* ------------------------------------------------------------------------- *)
(** * [sanitize_log_data] (src/utils/logging.py) *)

Definition sensitive_fields : list string :=
  ["password"; "ssn"; "social_security_number"; "dob"; "date_of_birth";
   "medical_record_number"; "mrn"; "patient_id"; "credit_card"; "phone";
   "address"; "email"; "first_name"; "last_name"; "full_name"].

(** [key.lower() in sensitive_fields] *)
Definition is_sensitive (key : string) : bool :=
  existsb (String.eqb (lower key)) sensitive_fields.

Definition REDACTED : json := JStr "[REDACTED]".

(** A logged value: a dict ([JObj]) is sanitized recursively, any other
    value, a list included, is kept as it is. The inner loop is [for key, value in data.items()]; the
    dict's keys are distinct, so building [sanitized] entry by entry keeps
    the order and the keys of [data]. *)
Fixpoint sanitize_value (value : json) : json :=
  match value with
  | JObj data =>
      JObj ((fix sanitize_fields (l : list (string * json)) :=
               match l with
               | [] => []
               | (key, v) :: t =>
                   (key, if is_sensitive key then REDACTED else sanitize_value v)
                   :: sanitize_fields t
               end) data)
  | _ => value
  end.

Definition sanitize_log_data (data : list (string * json)) : list (string * json) :=
  match sanitize_value (JObj data) with
  | JObj d => d
  | _ => data
  end.

(** Checker: in the dict and in every dict nested in it as a dict value,
    a sensitive key holds only [REDACTED]; lists are not looked into. *)
Fixpoint no_phi (value : json) : bool :=
  match value with
  | JObj data =>
      (fix fields_ok (l : list (string * json)) :=
         match l with
         | [] => true
         | (key, v) :: t =>
             (if is_sensitive key
              then match v with JStr s => String.eqb s "[REDACTED]" | _ => false end
              else no_phi v) && fields_ok t
         end) data
  | _ => true
  end.

(** Structural induction on JSON values through the fields of a dict. *)
Section JsonInd.
Variable P : json -> Prop.
Hypothesis P_scalar : forall v, (forall d, v <> JObj d) -> P v.
Hypothesis P_obj : forall d, Forall (fun kv => P (snd kv)) d -> P (JObj d).

Fixpoint json_nested_ind (v : json) : P v :=
  match v with
  | JObj d =>
      P_obj d ((fix go (l : list (string * json)) : Forall (fun kv => P (snd kv)) l :=
                  match l with
                  | [] => Forall_nil _
                  | kv :: t => Forall_cons kv (json_nested_ind (snd kv)) (go t)
                  end) d)
  | JNull => P_scalar JNull (fun d E => ltac:(discriminate E))
  | JBool b => P_scalar (JBool b) (fun d E => ltac:(discriminate E))
  | JInt z => P_scalar (JInt z) (fun d E => ltac:(discriminate E))
  | JStr s => P_scalar (JStr s) (fun d E => ltac:(discriminate E))
  | JFloat f => P_scalar (JFloat f) (fun d E => ltac:(discriminate E))
  | JList l => P_scalar (JList l) (fun d E => ltac:(discriminate E))
  end.
End JsonInd.

(** The lifetime [create_access_token] gives a token: [expires_delta]
    when it is truthy, else [ACCESS_TOKEN_EXPIRE_MINUTES]. *)
Definition token_lifetime (expires_delta : option Z) : Z :=
  match expires_delta with
  | Some d => if d =? 0 then ACCESS_TOKEN_EXPIRE_MINUTES * 60 else d
  | None => ACCESS_TOKEN_EXPIRE_MINUTES * 60
  end.

(* ------------------------------------------------------------------------- *)
(** * The application (src/main.py) *)

(** A GET request: its path, its [Authorization] header split at the first
    space (a scheme without spaces, and the credentials as a token), and
    the [limit] query parameter once parsed as an int. *)
Record Request : Type := mkRequest {
  path : string;
  authorization : option (string * token);
  limit_param : option Z
}.

(** Starlette's [JSONResponse(content, status_code, headers)]: the given
    headers with lower-cased names, then the content type. (The
    content-length header it also adds is not modelled.) *)
Definition JSONResponse (status : Z) (content : json)
  (hs : list (string * string)) : Response :=
  mkResponse status
    (map (fun kv => (lower (fst kv), snd kv)) hs ++
     [("content-type", "application/json")])%list
    content.

Definition API_PREFIX : string := "/api/v1".

(** The router, for GET requests to the API routes under [/api/v1] and to
    [/health/]; the dependencies of the API routes are [get_current_user]
    with [HTTPBearer] and the session. The other routes ([/metrics], the
    [/health/live], [/health/ready] and [/health/startup] probes, the
    OpenAPI and documentation pages), the 307 trailing-slash redirects,
    the 405 of other methods and the 422 of an unparseable [limit] are not
    modelled: the final [HTTPException(404)] stands only for a path that
    none of the application's routes serves. *)
Definition router (env : string -> option string) (db : AsyncSession) (now : Z)
  (req : Request) : result Response :=
  let current_user :=
    get_current_user (SECRET_KEY env) now (http_bearer (authorization req)) db in
  let p := path req in
  if String.eqb p "/health/" then Ok (JSONResponse 200 (health_check env now) [])
  else if String.eqb p (API_PREFIX ++ "/hello") then
    cu <- current_user ;; b <- hello_world cu now ;; Ok (JSONResponse 200 b [])
  else if String.eqb p (API_PREFIX ++ "/secure") then
    cu <- current_user ;; b <- secure_endpoint cu now ;; Ok (JSONResponse 200 b [])
  else if String.eqb p (API_PREFIX ++ "/users/me") then
    cu <- current_user ;; b <- get_current_user_info cu db ;;
    Ok (JSONResponse 200 b [])
  else if String.eqb p (API_PREFIX ++ "/audit-log") then
    cu <- current_user ;;
    b <- get_audit_log cu (match limit_param req with Some l => l | None => 10 end) now ;;
    Ok (JSONResponse 200 b [])
  else Raise (HTTPException 404 "Not Found" []).

(** Starlette's [ExceptionMiddleware]: an [HTTPException] becomes a JSON
    response carrying the exception's headers; other exceptions pass. *)
Definition exception_middleware (call_next : result Response) : result Response :=
  match call_next with
  | Raise (HTTPException st detail hs) =>
      Ok (JSONResponse st (JObj [("detail", JStr detail)]) hs)
  | r => r
  end.

(** [add_security_headers]: an exception raised by [call_next] propagates. *)
Definition add_security_headers (call_next : result Response) : result Response :=
  response <- call_next ;; Ok (setup_security_headers response).

(** [log_requests] only logs and counts. *)
Definition log_requests (call_next : result Response) : result Response :=
  call_next.

(** [TrustedHostMiddleware] with [allowed_hosts=["*"]] and [CORSMiddleware]
    pass these requests (no [Origin] header) through unchanged. *)
Definition trusted_host_cors (call_next : result Response) : result Response :=
  call_next.

Definition global_exception_handler (e : exn) : Response :=
  JSONResponse 500 (JObj [("detail", JStr "Internal server error")]) [].

(** [ServerErrorMiddleware], where [@app.exception_handler(Exception)] is
    installed: it wraps every user middleware. *)
Definition server_error_middleware (call_next : result Response) : Response :=
  match call_next with
  | Ok r => r
  | Raise e => global_exception_handler e
  end.

(** The middleware stack of [create_app], outermost first: the middleware
    added last ([log_requests]) runs first. *)
Definition app (env : string -> option string) (db : AsyncSession) (now : Z)
  (req : Request) : Response :=
  server_error_middleware
    (log_requests
       (add_security_headers
          (trusted_host_cors
             (exception_middleware (router env db now req))))).

(* ------------------------------------------------------------------------- *)
(** * Concrete runs *)

Definition env0 : string -> option string := fun _ => None.
Definition secret0 : string := SECRET_KEY env0.
Definition good_token : token :=
  create_access_token secret0 1000 [("sub", JStr "42")] None.

Example run_secure_ok :
  body (app env0 [] 1500 (mkRequest "/api/v1/secure" (Some ("Bearer", good_token)) None))
  = JObj [("message", JStr "This is a secure endpoint - you are authenticated!");
          ("timestamp", JInt 1500); ("user_id", JStr "42")].
Proof. vm_compute. reflexivity. Qed.

Example run_expired :
  status_code (app env0 [] 2801 (mkRequest "/api/v1/hello" (Some ("Bearer", good_token)) None))
  = 401.
Proof. vm_compute. reflexivity. Qed.

Example run_secure_no_auth :
  status_code (app env0 [] 1500 (mkRequest "/api/v1/secure" None None)) = 500.
Proof. vm_compute. reflexivity. Qed.

Example run_hello_no_auth :
  body (app env0 [] 1500 (mkRequest "/api/v1/hello" None None))
  = JObj [("message", JStr "Hello from HIPAA-compliant healthcare API!");
          ("timestamp", JInt 1500); ("user_id", JNull)].
Proof. vm_compute. reflexivity. Qed.

(* ------------------------------------------------------------------------- *)
(** * Lemmas on [MutableHeaders.__setitem__] *)

Definition has_key (k : string) (p : string * string) : bool :=
  String.eqb (fst p) k.

(** The entries named [k] in a header list. *)
Definition entries (k : string) (l : header_list) : header_list :=
  filter (has_key k) l.

Lemma dict_get_filter_other (j k : string) (l : header_list) :
  j <> k ->
  dict_get j (filter (fun p => negb (String.eqb (fst p) k)) l) = dict_get j l.
Proof.
  intros Hjk. induction l as [|[k' v'] t IH]; simpl; [reflexivity|].
  destruct (String.eqb_spec k' k) as [->|Hne]; simpl.
  - destruct (String.eqb_spec k j); [congruence|exact IH].
  - destruct (String.eqb k' j); [reflexivity|exact IH].
Qed.

Lemma setitem_raw_get_same (k v : string) (l : header_list) :
  dict_get k (setitem_raw k v l) = Some v.
Proof.
  induction l as [|[k' v'] t IH]; simpl.
  - rewrite String.eqb_refl. reflexivity.
  - destruct (String.eqb_spec k' k) as [->|Hne]; simpl.
    + rewrite String.eqb_refl. reflexivity.
    + apply String.eqb_neq in Hne. rewrite Hne. exact IH.
Qed.

Lemma setitem_raw_get_other (k j v : string) (l : header_list) :
  k <> j -> dict_get j (setitem_raw k v l) = dict_get j l.
Proof.
  intros Hkj. induction l as [|[k' v'] t IH]; simpl.
  - apply String.eqb_neq in Hkj. rewrite Hkj. reflexivity.
  - destruct (String.eqb_spec k' k) as [->|Hne]; simpl.
    + pose proof Hkj as Hkj'. apply String.eqb_neq in Hkj'. rewrite Hkj'.
      apply dict_get_filter_other. congruence.
    + destruct (String.eqb k' j); [reflexivity|exact IH].
Qed.

Lemma filter_none_negb (f : string * string -> bool) (l : header_list) :
  filter f l = [] -> filter (fun p => negb (f p)) l = l.
Proof.
  induction l as [|x t IH]; simpl; [reflexivity|].
  destruct (f x); simpl; [discriminate|].
  intros H. f_equal. exact (IH H).
Qed.

Lemma filter_and (f g : string * string -> bool) (l : header_list) :
  filter f (filter g l) = filter (fun p => g p && f p) l.
Proof.
  induction l as [|x t IH]; simpl; [reflexivity|].
  destruct (g x); simpl; [destruct (f x)|]; rewrite ?IH; reflexivity.
Qed.

Lemma filter_ext_eq (f g : string * string -> bool) (l : header_list) :
  (forall p, f p = g p) -> filter f l = filter g l.
Proof.
  intros H. induction l as [|x t IH]; simpl; [reflexivity|].
  rewrite H, IH. reflexivity.
Qed.

(** After [setitem k v] there is exactly one entry named [k], [(k, v)]. *)
Lemma setitem_raw_entries_same (k v : string) (l : header_list) :
  entries k (setitem_raw k v l) = [(k, v)].
Proof.
  unfold entries, has_key.
  induction l as [|[k' v'] t IH]; simpl.
  - rewrite String.eqb_refl. reflexivity.
  - destruct (String.eqb_spec k' k) as [->|Hne]; simpl.
    + rewrite String.eqb_refl. f_equal.
      rewrite filter_and.
      transitivity (filter (fun _ : string * string => false) t).
      * apply filter_ext_eq. intros [a b]; simpl.
        destruct (String.eqb a k); reflexivity.
      * clear. induction t; simpl; auto.
    + apply String.eqb_neq in Hne. rewrite Hne. exact IH.
Qed.

(** [setitem j w] leaves the entries named [k <> j] untouched. *)
Lemma setitem_raw_entries_other (j k w : string) (l : header_list) :
  j <> k -> entries k (setitem_raw j w l) = entries k l.
Proof.
  unfold entries, has_key. intros Hjk.
  pose proof Hjk as Hjk'. apply String.eqb_neq in Hjk'.
  induction l as [|[k' v'] t IH]; simpl.
  - rewrite Hjk'. reflexivity.
  - destruct (String.eqb_spec k' j) as [->|Hne]; simpl.
    + rewrite Hjk'. rewrite filter_and. apply filter_ext_eq.
      intros [a b]; simpl.
      destruct (String.eqb_spec a k) as [->|]; [|apply andb_false_r].
      rewrite String.eqb_sym, Hjk'. reflexivity.
    + destruct (String.eqb k' k); [f_equal|]; exact IH.
Qed.

(** A header already set to [v], once, is left as it is by [setitem]. *)
Lemma setitem_raw_single (k v : string) (l : header_list) :
  entries k l = [(k, v)] -> setitem_raw k v l = l.
Proof.
  unfold entries, has_key.
  induction l as [|[k' v'] t IH]; simpl; [discriminate|].
  destruct (String.eqb_spec k' k) as [->|Hne].
  - intros H. injection H as Hv Hrest. subst v'.
    f_equal. apply (filter_none_negb (fun p => String.eqb (fst p) k)).
    exact Hrest.
  - intros H. f_equal. exact (IH H).
Qed.

Lemma entries_single_get (k v : string) (l : header_list) :
  entries k l = [(k, v)] -> dict_get k l = Some v.
Proof.
  unfold entries, has_key.
  induction l as [|[k' v'] t IH]; simpl; [discriminate|].
  destruct (String.eqb_spec k' k) as [->|Hne].
  - intros H. injection H as Hv _. subst v'. reflexivity.
  - intros H. exact (IH H).
Qed.

(** The lower-cased names a list of assignments sets. *)
Definition set_names (hs : list (string * string)) : list string :=
  map (fun kv => lower (fst kv)) hs.

(** Every assignment of [hs] already in place, once. *)
Definition all_set (hs : list (string * string)) (l : header_list) : Prop :=
  Forall (fun kv => entries (lower (fst kv)) l = [(lower (fst kv), snd kv)]) hs.

Lemma apply_headers_fixed (hs : list (string * string)) (l : header_list) :
  all_set hs l -> apply_headers hs l = l.
Proof.
  unfold all_set, apply_headers.
  induction hs as [|[k v] hs IH]; simpl; intros H; [reflexivity|].
  inversion H as [|? ? Hkv Hrest]; subst; simpl in Hkv.
  unfold setitem. rewrite (setitem_raw_single _ _ _ Hkv). exact (IH Hrest).
Qed.

Lemma apply_headers_entries_other (hs : list (string * string)) (k : string)
  (l : header_list) :
  ~ In k (set_names hs) -> entries k (apply_headers hs l) = entries k l.
Proof.
  unfold apply_headers, set_names. revert l.
  induction hs as [|[j w] hs IH]; simpl; intros l Hk; [reflexivity|].
  rewrite IH by tauto. unfold setitem.
  apply setitem_raw_entries_other. intros E. apply Hk. left. exact E.
Qed.

Lemma apply_headers_all_set (hs : list (string * string)) (l : header_list) :
  NoDup (set_names hs) -> all_set hs (apply_headers hs l).
Proof.
  unfold all_set. revert l.
  induction hs as [|[k v] hs IH]; simpl; intros l Hnd; [constructor|].
  inversion Hnd as [|? ? Hnotin Hnd']; subst.
  constructor.
  - simpl. change (fold_left _ hs (setitem k v l)) with
      (apply_headers hs (setitem k v l)).
    rewrite apply_headers_entries_other by exact Hnotin.
    apply setitem_raw_entries_same.
  - exact (IH _ Hnd').
Qed.

Lemma security_headers_nodup : NoDup (set_names security_headers).
Proof.
  vm_compute.
  repeat (constructor; [simpl; intuition discriminate|]). constructor.
Qed.

(** Each assignment of [setup_security_headers] is what the response
    carries afterwards, whatever headers it had before. *)
Lemma setup_security_headers_get (r : Response) :
  Forall (fun kv => header_get (fst kv) (headers (setup_security_headers r))
                    = Some (snd kv)) security_headers.
Proof.
  pose proof (apply_headers_all_set security_headers (headers r)
                security_headers_nodup) as H.
  unfold all_set in H. unfold header_get, setup_security_headers, with_headers.
  simpl. eapply Forall_impl; [|exact H].
  intros kv Hkv. apply entries_single_get. exact Hkv.
Qed.

(* ------------------------------------------------------------------------- *)
(** * Lemmas on the auth gate and the router *)

Definition bearer_challenge : list (string * string) :=
  [("WWW-Authenticate", "Bearer")].

(** The paths whose handler depends on [get_current_user]. *)
Definition auth_paths : list string :=
  ["/api/v1/hello"; "/api/v1/secure"; "/api/v1/users/me"; "/api/v1/audit-log"].

(** [require_auth], the dependency the required-auth routes do not use,
    would answer a missing credential with 401 and the challenge. *)
Lemma require_auth_none :
  require_auth None = Raise (HTTPException 401 "Authentication required" bearer_challenge).
Proof. reflexivity. Qed.

Lemma http_bearer_some (sch : string) (tok : token) :
  lower sch = "bearer" -> tok <> Malformed "" ->
  http_bearer (Some (sch, tok)) = Some (mkCredentials sch tok).
Proof.
  intros H Ht. unfold http_bearer.
  assert (Hs : String.eqb sch "" = false)
    by (destruct sch; [simpl in H; discriminate H|reflexivity]).
  assert (He : empty_credentials tok = false).
  { destruct tok as [raw|]; [|reflexivity]. simpl. apply String.eqb_neq.
    intros ->. apply Ht. reflexivity. }
  rewrite Hs, He, H. reflexivity.
Qed.

(** [jwt.decode] on a signed token with the one allowed algorithm. *)
Lemma jwt_decode_signed (alg k : string) (payload : list (string * json))
  (key : string) (now : Z) :
  jwt_decode (Signed alg k payload) key [ALGORITHM] now =
  if String.eqb alg ALGORITHM then
    if String.eqb k key then
      if json_loads_ok (JObj payload)
      then (_ <- validate_claims now payload ;; Ok payload)
      else Raise (JWTError "Invalid payload string")
    else Raise (JWTError "Signature verification failed.")
  else Raise (JWTError "The specified alg value is not allowed").
Proof.
  unfold jwt_decode. simpl existsb.
  destruct (String.eqb alg ALGORITHM);
    [destruct (String.eqb k key); [destruct (json_loads_ok (JObj payload))|]|];
    reflexivity.
Qed.

(** An exception that is not a [JWTError] and that [int()] raises. *)
Definition escapes (e : exn) : Prop :=
  exists m, e = TypeError m \/ e = OverflowError m.

(** Whether [int()] is safe on each of the three time claims. *)
Definition time_claims_safe (claims : list (string * json)) : bool :=
  int_safe (dict_get "iat" claims) && int_safe (dict_get "nbf" claims) &&
  int_safe (dict_get "exp" claims).

Lemma int_claim_raise (msg : string) (v : json) (e : exn) :
  int_claim msg v = Raise e ->
  e = JWTError msg \/ (int_safe (Some v) = false /\ escapes e).
Proof.
  unfold int_claim, int_safe, escapes.
  destruct (py_int v); intros H; try discriminate; injection H as <-.
  - left. reflexivity.
  - right. split; [reflexivity|]. eexists. left. reflexivity.
  - right. split; [reflexivity|]. eexists. right. reflexivity.
Qed.


(** The three time checks raise a [JWTError], or what [int()] raises on a
    claim it cannot convert. *)
Lemma validate_iat_raise (claims : list (string * json)) (e : exn) :
  validate_iat claims = Raise e ->
  (exists m, e = JWTError m) \/ (int_safe (dict_get "iat" claims) = false /\ escapes e).
Proof.
  unfold validate_iat. destruct (dict_get "iat" claims) as [v|]; [|discriminate].
  destruct (int_claim _ v) as [z|e'] eqn:E; cbn [bind]; [discriminate|].
  intros H. injection H as <-.
  destruct (int_claim_raise _ _ _ E) as [->|H]; [left; eauto|right; exact H].
Qed.

Lemma validate_nbf_raise (now : Z) (claims : list (string * json)) (e : exn) :
  validate_nbf now claims = Raise e ->
  (exists m, e = JWTError m) \/ (int_safe (dict_get "nbf" claims) = false /\ escapes e).
Proof.
  unfold validate_nbf. destruct (dict_get "nbf" claims) as [v|]; [|discriminate].
  destruct (int_claim _ v) as [z|e'] eqn:E; cbn [bind].
  - destruct (now <? z); [|discriminate]. intros H. injection H as <-. left. eauto.
  - intros H. injection H as <-.
    destruct (int_claim_raise _ _ _ E) as [->|H]; [left; eauto|right; exact H].
Qed.

Lemma validate_exp_raise (now : Z) (claims : list (string * json)) (e : exn) :
  validate_exp now claims = Raise e ->
  (exists m, e = JWTError m) \/ (int_safe (dict_get "exp" claims) = false /\ escapes e).
Proof.
  unfold validate_exp. destruct (dict_get "exp" claims) as [v|]; [|discriminate].
  destruct (int_claim _ v) as [z|e'] eqn:E; cbn [bind].
  - destruct (z <? now); [|discriminate]. intros H. injection H as <-. left. eauto.
  - intros H. injection H as <-.
    destruct (int_claim_raise _ _ _ E) as [->|H]; [left; eauto|right; exact H].
Qed.

(** The other checks only ever raise a [JWTError]. *)
Lemma validate_aud_raise (claims : list (string * json)) (e : exn) :
  validate_aud claims = Raise e -> exists m, e = JWTError m.
Proof.
  unfold validate_aud.
  destruct (dict_get "aud" claims) as [[]|]; try destruct (forallb is_str _);
    intros H; try discriminate; injection H as <-; eauto.
Qed.

Lemma validate_sub_raise (claims : list (string * json)) (e : exn) :
  validate_sub claims = Raise e -> exists m, e = JWTError m.
Proof.
  unfold validate_sub.
  destruct (dict_get "sub" claims) as [[]|]; intros H; try discriminate;
    injection H as <-; eauto.
Qed.

Lemma validate_jti_raise (claims : list (string * json)) (e : exn) :
  validate_jti claims = Raise e -> exists m, e = JWTError m.
Proof.
  unfold validate_jti.
  destruct (dict_get "jti" claims) as [[]|]; intros H; try discriminate;
    injection H as <-; eauto.
Qed.

Lemma validate_at_hash_raise (claims : list (string * json)) (e : exn) :
  validate_at_hash claims = Raise e -> exists m, e = JWTError m.
Proof.
  unfold validate_at_hash.
  destruct (dict_get "at_hash" claims); intros H; try discriminate;
    injection H as <-; eauto.
Qed.

(** [_validate_claims] raises a [JWTError], unless [int()] fails on a time
    claim with a [TypeError] or an [OverflowError]. *)
Lemma validate_claims_raise (now : Z) (claims : list (string * json)) (e : exn) :
  validate_claims now claims = Raise e ->
  (exists m, e = JWTError m) \/ (time_claims_safe claims = false /\ escapes e).
Proof.
  unfold validate_claims, time_claims_safe.
  destruct (validate_iat claims) as [[]|e1] eqn:E1; cbn [bind].
  2:{ intros H. injection H as <-. destruct (validate_iat_raise _ _ E1) as [H|[Hs H]];
      [left; exact H|right; rewrite Hs; split; [reflexivity|exact H]]. }
  destruct (validate_nbf now claims) as [[]|e2] eqn:E2; cbn [bind].
  2:{ intros H. injection H as <-. destruct (validate_nbf_raise _ _ _ E2) as [H|[Hs H]];
      [left; exact H|right; rewrite Hs, andb_false_r; split; [reflexivity|exact H]]. }
  destruct (validate_exp now claims) as [[]|e3] eqn:E3; cbn [bind].
  2:{ intros H. injection H as <-. destruct (validate_exp_raise _ _ _ E3) as [H|[Hs H]];
      [left; exact H|right; rewrite Hs, andb_false_r; split; [reflexivity|exact H]]. }
  destruct (validate_aud claims) as [[]|e4] eqn:E4; cbn [bind];
    [|intros H; injection H as <-; left; exact (validate_aud_raise _ _ E4)].
  destruct (validate_sub claims) as [[]|e5] eqn:E5; cbn [bind];
    [|intros H; injection H as <-; left; exact (validate_sub_raise _ _ E5)].
  destruct (validate_jti claims) as [[]|e6] eqn:E6; cbn [bind];
    [|intros H; injection H as <-; left; exact (validate_jti_raise _ _ E6)].
  intros H. left. exact (validate_at_hash_raise _ _ H).
Qed.

(** [jwt.decode] raises a [JWTError], unless the token is signed with the
    key under HS256, its payload loads, and [int()] fails on a time
    claim. *)
Lemma jwt_decode_raise (tok : token) (key : string) (now : Z) (e : exn) :
  jwt_decode tok key [ALGORITHM] now = Raise e ->
  (exists m, e = JWTError m) \/
  (exists payload, tok = Signed ALGORITHM key payload /\
                   json_loads_ok (JObj payload) = true /\
                   time_claims_safe payload = false /\ escapes e).
Proof.
  destruct tok as [raw|alg k payload].
  - simpl. intros H. injection H as <-. left. eauto.
  - rewrite jwt_decode_signed.
    destruct (String.eqb_spec alg ALGORITHM) as [->|_];
      [|intros H; injection H as <-; left; eauto].
    destruct (String.eqb_spec k key) as [->|_];
      [|intros H; injection H as <-; left; eauto].
    destruct (json_loads_ok (JObj payload)) eqn:Hl;
      [|intros H; injection H as <-; left; eauto].
    destruct (validate_claims now payload) as [[]|e'] eqn:Ev; cbn [bind];
      [discriminate|].
    intros H. injection H as <-.
    destruct (validate_claims_raise _ _ _ Ev) as [H|[Hs H]]; [left; exact H|].
    right. exists payload. repeat split; assumption.
Qed.





(** Any [JWTError] of [jwt.decode] becomes [credentials_exception]. *)
Lemma get_current_user_decode_error (secret : string) (now : Z)
  (c : HTTPAuthorizationCredentials) (db : AsyncSession) (msg : string) :
  jwt_decode (credentials c) secret [ALGORITHM] now = Raise (JWTError msg) ->
  get_current_user secret now (Some c) db = Raise credentials_exception.
Proof. intros H. unfold get_current_user. rewrite H. reflexivity. Qed.

(** On an API path, an exception of the auth dependency is the router's. *)
Lemma router_auth_raise (env : string -> option string) (db : AsyncSession)
  (now : Z) (req : Request) (e : exn) :
  In (path req) auth_paths ->
  get_current_user (SECRET_KEY env) now (http_bearer (authorization req)) db = Raise e ->
  router env db now req = Raise e.
Proof.
  intros Hp Hg. unfold router. rewrite Hg.
  destruct req as [p a l]; simpl in *.
  destruct Hp as [<-|[<-|[<-|[<-|[]]]]]; reflexivity.
Qed.

(** A response built by the exception middleware from an [HTTPException]
    goes through [add_security_headers]. *)
Lemma app_http_exception (env : string -> option string) (db : AsyncSession)
  (now : Z) (req : Request) (st : Z) (detail : string) (hs : list (string * string)) :
  router env db now req = Raise (HTTPException st detail hs) ->
  app env db now req
  = setup_security_headers (JSONResponse st (JObj [("detail", JStr detail)]) hs).
Proof. intros H. unfold app. rewrite H. reflexivity. Qed.

(* ------------------------------------------------------------------------- *)
(** * Claims *)

(** C1 (code_bug). A request without an [Authorization] header to
    [/api/v1/secure], [/api/v1/users/me] or [/api/v1/audit-log] is not
    answered with 401 and [WWW-Authenticate: Bearer]: these routes depend
    on [get_current_user], which returns [None], the handler's
    [current_user.id] raises, and the global handler answers 500 without a
    challenge header. *)
Theorem required_auth_no_header_500 :
  Forall (fun p => forall env db now lim,
            app env db now (mkRequest p None lim) = global_exception_handler none_id /\
            status_code (app env db now (mkRequest p None lim)) = 500 /\
            header_get "WWW-Authenticate" (headers (app env db now (mkRequest p None lim)))
            = None)
    ["/api/v1/secure"; "/api/v1/users/me"; "/api/v1/audit-log"].
Proof.
  repeat constructor; intros env db now lim;
    assert (E : app env db now (mkRequest _ None lim) = global_exception_handler none_id)
      by reflexivity;
    rewrite E; repeat split; reflexivity.
Qed.

(** C2 (counterexample). The envelope does not attach exactly six headers
    locking scripts and styles to same-origin: a health response carries
    a seventh, [X-XSS-Protection], and a script-src allowing
    ['unsafe-inline']; and the 500 answer to [/api/v1/secure] without
    credentials carries no [X-Frame-Options] at all. *)
Lemma envelope_six_headers_counterexample :
  header_get "X-XSS-Protection"
    (headers (app env0 [] 0 (mkRequest "/health/" None None))) = Some "1; mode=block" /\
  (exists csp n,
     header_get "Content-Security-Policy"
       (headers (app env0 [] 0 (mkRequest "/health/" None None))) = Some csp /\
     String.index 0 "script-src 'self' 'unsafe-inline';" csp = Some n) /\
  status_code (app env0 [] 0 (mkRequest "/api/v1/secure" None None)) = 500 /\
  header_get "X-Frame-Options"
    (headers (app env0 [] 0 (mkRequest "/api/v1/secure" None None))) = None.
Proof.
  split; [vm_compute; reflexivity|].
  split; [eexists; eexists; split; vm_compute; reflexivity|].
  split; vm_compute; reflexivity.
Qed.

(** Whether the stack below [add_security_headers] returned a response
    rather than raising. *)
Definition reaches_envelope (env : string -> option string) (db : AsyncSession)
  (now : Z) (req : Request) : bool :=
  match trusted_host_cors (exception_middleware (router env db now req)) with
  | Ok _ => true
  | Raise _ => false
  end.

(** C2 (amended). Every response that reaches the security-header
    middleware (route responses, and [HTTPException] answers such as 401
    and 404) carries each of the seven headers of
    [setup_security_headers] with its fixed value. *)
Theorem envelope_on_every_handled_response (env : string -> option string)
  (db : AsyncSession) (now : Z) (req : Request) :
  reaches_envelope env db now req = true ->
  Forall (fun kv => header_get (fst kv) (headers (app env db now req)) = Some (snd kv))
    security_headers.
Proof.
  unfold reaches_envelope, app. intros H.
  destruct (trusted_host_cors (exception_middleware (router env db now req)))
    as [resp|e] eqn:E; [|discriminate].
  unfold log_requests, add_security_headers. simpl.
  apply setup_security_headers_get.
Qed.

Lemma envelope_on_every_handled_response_witness :
  reaches_envelope env0 [] 0 (mkRequest "/api/v1/hello" (Some ("Bearer", Malformed "x")) None)
  = true /\
  Forall (fun kv => header_get (fst kv)
            (headers (app env0 [] 0 (mkRequest "/api/v1/hello" (Some ("Bearer", Malformed "x")) None)))
          = Some (snd kv)) security_headers.
Proof.
  split; [vm_compute; reflexivity|].
  apply envelope_on_every_handled_response. vm_compute. reflexivity.
Defined.




(** A token signed with HS256 under the service's key [secret0], expired
    at time 2801, whose [iat] claim is [null]. *)
Definition null_iat_token : token :=
  Signed ALGORITHM secret0 [("sub", JStr "42"); ("exp", JInt 2800); ("iat", JNull)].

(** C4 (code_bug). An expired token whose signature verifies under the
    service's key and whose [iat] claim is [null] is not rejected with
    401: jose's [int(None)] raises a [TypeError], which is not a
    [JWTError], so it escapes [get_current_user] and the global handler
    answers 500. *)
Theorem expired_token_null_iat_500 :
  get_current_user secret0 2801 (Some (mkCredentials "Bearer" null_iat_token)) []
  = Raise (TypeError "int() argument must be a string, a bytes-like object or a real number") /\
  app env0 [] 2801 (mkRequest "/api/v1/hello" (Some ("Bearer", null_iat_token)) None)
  = global_exception_handler
      (TypeError "int() argument must be a string, a bytes-like object or a real number") /\
  status_code (app env0 [] 2801 (mkRequest "/api/v1/hello" (Some ("Bearer", null_iat_token)) None))
  = 500.
Proof. repeat split; vm_compute; reflexivity. Qed.



(** C6. [setup_security_headers] is idempotent: each header is
    overwritten in place, so a second application changes nothing. *)
Theorem setup_security_headers_idempotent (r : Response) :
  setup_security_headers (setup_security_headers r) = setup_security_headers r.
Proof.
  unfold setup_security_headers at 1. unfold with_headers at 1.
  rewrite apply_headers_fixed.
  - destruct r; reflexivity.
  - apply apply_headers_all_set. exact security_headers_nodup.
Qed.

(** C7 (counterexample). Not every request presenting an invalid bearer
    credential is answered 401: an empty credential ([Authorization:
    Bearer ]) counts as none, so [/api/v1/hello] answers 200 with no
    identity; and an expired token signed with the service's key whose
    [iat] is [null] gets 500. *)
Lemma invalid_credential_counterexample :
  app env0 [] 1500 (mkRequest "/api/v1/hello" (Some ("Bearer", Malformed "")) None)
  = setup_security_headers
      (JSONResponse 200
         (JObj [("message", JStr "Hello from HIPAA-compliant healthcare API!");
                ("timestamp", JInt 1500); ("user_id", JNull)]) []) /\
  status_code (app env0 [] 2801 (mkRequest "/api/v1/hello" (Some ("Bearer", null_iat_token)) None))
  = 500.
Proof. split; vm_compute; reflexivity. Qed.

(** C7 (amended). A request whose [Authorization] header carries the
    bearer scheme (in any letter case) with a non-empty token that
    [jwt.decode] rejects with a [JWTError] (bad signature, algorithm other
    than HS256, undecodable, expired, or any other failed claim check) is
    answered 401 with the [WWW-Authenticate: Bearer] challenge on every
    route that depends on [get_current_user], the optional-auth
    [/api/v1/hello] included: no such route falls back to "no identity". *)
Theorem invalid_credential_401 (env : string -> option string) (db : AsyncSession)
  (now : Z) (p sch : string) (tok : token) (lim : option Z) (msg : string) :
  lower sch = "bearer" ->
  tok <> Malformed "" ->
  In p auth_paths ->
  jwt_decode tok (SECRET_KEY env) [ALGORITHM] now = Raise (JWTError msg) ->
  status_code (app env db now (mkRequest p (Some (sch, tok)) lim)) = 401 /\
  header_get "WWW-Authenticate" (headers (app env db now (mkRequest p (Some (sch, tok)) lim)))
  = Some "Bearer".
Proof.
  intros Hsch Htok Hp Hdec.
  assert (Hg : get_current_user (SECRET_KEY env) now
                 (http_bearer (authorization (mkRequest p (Some (sch, tok)) lim))) db
               = Raise credentials_exception).
  { cbn [authorization]. rewrite (http_bearer_some _ _ Hsch Htok).
    exact (get_current_user_decode_error _ _ (mkCredentials sch tok) _ _ Hdec). }
  rewrite (app_http_exception _ _ _ _ 401 "Could not validate credentials" bearer_challenge
             (router_auth_raise _ _ _ (mkRequest p (Some (sch, tok)) lim) _ Hp Hg)).
  split; vm_compute; reflexivity.
Qed.

Lemma invalid_credential_401_witness :
  lower "Bearer" = "bearer" /\
  Signed ALGORITHM secret0 [("sub", JStr "42"); ("exp", JInt 2800)] <> Malformed "" /\
  In "/api/v1/hello" auth_paths /\
  jwt_decode (Signed ALGORITHM secret0 [("sub", JStr "42"); ("exp", JInt 2800)])
    (SECRET_KEY env0) [ALGORITHM] 2801
  = Raise (JWTError "Signature has expired.") /\
  status_code (app env0 [] 2801
                 (mkRequest "/api/v1/hello"
                    (Some ("Bearer", Signed ALGORITHM secret0 [("sub", JStr "42"); ("exp", JInt 2800)]))
                    None))
  = 401 /\
  header_get "WWW-Authenticate"
    (headers (app env0 [] 2801
                (mkRequest "/api/v1/hello"
                   (Some ("Bearer", Signed ALGORITHM secret0 [("sub", JStr "42"); ("exp", JInt 2800)]))
                   None)))
  = Some "Bearer".
Proof.
  assert (Hd : jwt_decode (Signed ALGORITHM secret0 [("sub", JStr "42"); ("exp", JInt 2800)])
                 (SECRET_KEY env0) [ALGORITHM] 2801
               = Raise (JWTError "Signature has expired.")) by (vm_compute; reflexivity).
  split; [reflexivity|]. split; [discriminate|]. split; [simpl; tauto|]. split; [exact Hd|].
  apply (invalid_credential_401 env0 [] 2801 "/api/v1/hello" "Bearer"
           (Signed ALGORITHM secret0 [("sub", JStr "42"); ("exp", JInt 2800)]) None
           "Signature has expired.");
    [reflexivity|discriminate|simpl; tauto|exact Hd].
Defined.



(** C9 (code_bug). A token whose signature verifies under the service's
    key, which has not expired and has no [sub] claim, is not rejected
    with 401 when its [iat] claim is [null]: jose's [int(None)] raises a
    [TypeError] before [sub] is looked at, it escapes [get_current_user]
    (which catches only [JWTError]), and the global handler answers 500. *)
Theorem sub_missing_null_iat_500 :
  get_current_user secret0 1500
    (Some (mkCredentials "Bearer" (Signed ALGORITHM secret0 [("exp", JInt 2800); ("iat", JNull)]))) []
  = Raise (TypeError "int() argument must be a string, a bytes-like object or a real number") /\
  status_code (app env0 [] 1500
                 (mkRequest "/api/v1/hello"
                    (Some ("Bearer", Signed ALGORITHM secret0 [("exp", JInt 2800); ("iat", JNull)]))
                    None))
  = 500.
Proof. split; vm_compute; reflexivity. Qed.

(** C10. The user [get_current_user] accepts a credential with is
    synthesized from the token's [sub] claim: its id is [sub], its email
    is ["user" ++ sub ++ "@example.com"], it is active, and it is created
    at the request time; the session is never consulted, so the same user
    comes back whatever the users table holds, inactive or missing
    subjects included. *)
Theorem get_current_user_synthesized (secret : string) (now : Z)
  (c : HTTPAuthorizationCredentials) (db : AsyncSession) (u : User) :
  get_current_user secret now (Some c) db = Ok (Some u) ->
  (exists payload, jwt_decode (credentials c) secret [ALGORITHM] now = Ok payload /\
                   dict_get "sub" payload = Some (JStr (id u))) /\
  u = mkUser (id u) ("user" ++ id u ++ "@example.com") now true /\
  (forall db', get_current_user secret now (Some c) db' = Ok (Some u)).
Proof.
  intros H.
  assert (Hdb : forall db', get_current_user secret now (Some c) db'
                            = get_current_user secret now (Some c) db)
    by reflexivity.
  split; [|split; [|intros db'; rewrite Hdb; exact H]].
  - unfold get_current_user in H.
    destruct (jwt_decode (credentials c) secret [ALGORITHM] now) as [payload|e];
      [|destruct e; discriminate].
    exists payload. split; [reflexivity|].
    destruct (dict_get "sub" payload) as [[| | |s| | |]|]; simpl in H; try discriminate.
    injection H as <-. reflexivity.
  - unfold get_current_user in H.
    destruct (jwt_decode (credentials c) secret [ALGORITHM] now) as [payload|e];
      [|destruct e; discriminate].
    destruct (dict_get "sub" payload) as [[| | |s| | |]|]; simpl in H; try discriminate.
    injection H as <-. reflexivity.
Qed.

Lemma get_current_user_synthesized_witness :
  get_current_user secret0 1500 (Some (mkCredentials "Bearer" good_token)) []
  = Ok (Some (mkUser "42" "user42@example.com" 1500 true)) /\
  ((exists payload,
      jwt_decode (credentials (mkCredentials "Bearer" good_token)) secret0 [ALGORITHM] 1500
      = Ok payload /\
      dict_get "sub" payload = Some (JStr (id (mkUser "42" "user42@example.com" 1500 true)))) /\
   mkUser "42" "user42@example.com" 1500 true
   = mkUser (id (mkUser "42" "user42@example.com" 1500 true))
       ("user" ++ id (mkUser "42" "user42@example.com" 1500 true) ++ "@example.com") 1500 true /\
   (forall db', get_current_user secret0 1500 (Some (mkCredentials "Bearer" good_token)) db'
                = Ok (Some (mkUser "42" "user42@example.com" 1500 true)))).
Proof.
  split; [vm_compute; reflexivity|].
  apply (get_current_user_synthesized secret0 1500 (mkCredentials "Bearer" good_token) []).
  vm_compute. reflexivity.
Defined.

(* ------------------------------------------------------------------------- *)
(** * Further properties of the code *)

Lemma sanitize_log_data_cons (k : string) (v : json) (t : list (string * json)) :
  sanitize_log_data ((k, v) :: t)
  = (k, if is_sensitive k then REDACTED else sanitize_value v) :: sanitize_log_data t.
Proof. reflexivity. Qed.

Lemma sanitize_value_obj (d : list (string * json)) :
  sanitize_value (JObj d) = JObj (sanitize_log_data d).
Proof. reflexivity. Qed.

Lemma sanitize_value_scalar (v : json) :
  (forall d, v <> JObj d) -> sanitize_value v = v.
Proof. intros H. destruct v; try reflexivity. exfalso. exact (H fields eq_refl). Qed.

Lemma no_phi_cons (k : string) (v : json) (t : list (string * json)) :
  no_phi (JObj ((k, v) :: t))
  = (if is_sensitive k
     then match v with JStr s => String.eqb s "[REDACTED]" | _ => false end
     else no_phi v) && no_phi (JObj t).
Proof. reflexivity. Qed.

(** [sanitize_log_data] keeps every key of the dict, in order: it neither
    drops nor adds entries. *)
Theorem sanitize_log_data_keys (data : list (string * json)) :
  map fst (sanitize_log_data data) = map fst data.
Proof.
  induction data as [|[k v] t IH]; [reflexivity|].
  rewrite sanitize_log_data_cons. simpl. f_equal. exact IH.
Qed.

(** Looking a key up in the sanitized dict gives [REDACTED] when the key
    is sensitive (in any letter case), the sanitized nested dict when the
    value is a dict, the value itself otherwise, and nothing when the key
    is absent. *)
Theorem sanitize_log_data_lookup (data : list (string * json)) (k : string) :
  dict_get k (sanitize_log_data data)
  = option_map (fun v => if is_sensitive k then REDACTED else sanitize_value v)
      (dict_get k data).
Proof.
  induction data as [|[k' v] t IH]; [reflexivity|].
  rewrite sanitize_log_data_cons. simpl.
  destruct (String.eqb_spec k' k) as [->|_]; [reflexivity|exact IH].
Qed.

(** After [sanitize_log_data], no sensitive key holds anything but
    ["[REDACTED]"], at any nesting depth of dicts. *)
Theorem sanitize_log_data_no_phi (data : list (string * json)) :
  no_phi (JObj (sanitize_log_data data)) = true.
Proof.
  rewrite <- sanitize_value_obj. generalize (JObj data) as v.
  apply json_nested_ind.
  - intros v Hv. rewrite sanitize_value_scalar by exact Hv.
    destruct v; try reflexivity. exfalso. exact (Hv fields eq_refl).
  - intros d Hd. rewrite sanitize_value_obj.
    induction Hd as [|[k v] t Hv Ht IH]; [reflexivity|].
    rewrite sanitize_log_data_cons, no_phi_cons. simpl in Hv.
    destruct (is_sensitive k); rewrite IH, ?Hv; reflexivity.
Qed.

(** Sanitizing is idempotent: a sanitized dict is its own sanitization. *)
Theorem sanitize_log_data_idempotent (data : list (string * json)) :
  sanitize_log_data (sanitize_log_data data) = sanitize_log_data data.
Proof.
  assert (H : forall v, sanitize_value (sanitize_value v) = sanitize_value v).
  { apply json_nested_ind.
    - intros v Hv. rewrite (sanitize_value_scalar v Hv).
      rewrite (sanitize_value_scalar v Hv). reflexivity.
    - intros d Hd. rewrite !sanitize_value_obj. f_equal.
      induction Hd as [|[k v] t Hv Ht IH]; [reflexivity|].
      rewrite !sanitize_log_data_cons. simpl in Hv.
      destruct (is_sensitive k) eqn:Hk; rewrite ?Hk, IH; [reflexivity|].
      rewrite Hv. reflexivity. }
  pose proof (H (JObj data)) as Hd. rewrite !sanitize_value_obj in Hd.
  injection Hd as Hd. exact Hd.
Qed.

Lemma dict_set_get_same {A} (k : string) (v : A) (d : list (string * A)) :
  dict_get k (dict_set k v d) = Some v.
Proof.
  induction d as [|[k' v'] t IH]; simpl.
  - rewrite String.eqb_refl. reflexivity.
  - destruct (String.eqb_spec k' k) as [->|Hne]; simpl.
    + rewrite String.eqb_refl. reflexivity.
    + apply String.eqb_neq in Hne. rewrite Hne. exact IH.
Qed.

Lemma dict_set_get_other {A} (k j : string) (v : A) (d : list (string * A)) :
  j <> k -> dict_get j (dict_set k v d) = dict_get j d.
Proof.
  intros Hjk. pose proof Hjk as Hkj. apply not_eq_sym, String.eqb_neq in Hkj.
  induction d as [|[k' v'] t IH]; simpl.
  - rewrite Hkj. reflexivity.
  - destruct (String.eqb_spec k' k) as [->|Hne]; simpl.
    + rewrite Hkj. reflexivity.
    + destruct (String.eqb k' j); [reflexivity|exact IH].
Qed.

Lemma create_access_token_signed (secret : string) (now : Z)
  (data : list (string * json)) (delta : option Z) :
  create_access_token secret now data delta
  = Signed ALGORITHM secret (dict_set "exp" (JInt (now + token_lifetime delta)) data).
Proof.
  unfold create_access_token, token_lifetime.
  destruct delta as [d|]; [destruct (d =? 0)|]; reflexivity.
Qed.

(** A token from [create_access_token] is signed with HS256 under the
    given key; its [exp] is the issue time plus [expires_delta] (thirty
    minutes when the delta is absent or zero), overriding any [exp] the
    caller passed, and every other claim of [data] is carried unchanged. *)
Theorem create_access_token_payload (secret : string) (now : Z)
  (data : list (string * json)) (delta : option Z) :
  exists payload,
    create_access_token secret now data delta = Signed ALGORITHM secret payload /\
    dict_get "exp" payload = Some (JInt (now + token_lifetime delta)) /\
    (forall k, k <> "exp" -> dict_get k payload = dict_get k data).
Proof.
  rewrite create_access_token_signed. eexists. split; [reflexivity|]. split.
  - apply dict_set_get_same.
  - intros k Hk. apply dict_set_get_other. exact Hk.
Qed.










(** The exceptions [get_current_user] raises: the credentials exception,
    or what [int()] raises on a time claim of a token signed with the key. *)
Lemma get_current_user_raise (secret : string) (now : Z)
  (creds : option HTTPAuthorizationCredentials) (db : AsyncSession) (e : exn) :
  get_current_user secret now creds db = Raise e ->
  e = credentials_exception \/
  (exists sch payload,
     creds = Some (mkCredentials sch (Signed ALGORITHM secret payload)) /\
     json_loads_ok (JObj payload) = true /\
     time_claims_safe payload = false /\ escapes e).
Proof.
  destruct creds as [c|]; [|discriminate]. unfold get_current_user.
  destruct (jwt_decode (credentials c) secret [ALGORITHM] now) as [payload|e'] eqn:Ed.
  - destruct (dict_get "sub" payload) as [[| | |s| | |]|]; cbn [bind];
      try (intros H; injection H as <-; left; reflexivity); discriminate.
  - destruct (jwt_decode_raise _ _ _ _ Ed) as [[m ->]|[payload [Ht [Hl [Hs He]]]]].
    + intros H. injection H as <-. left. reflexivity.
    + destruct He as [m [-> | ->]]; intros H; injection H as <-; right;
        exists (scheme c), payload; destruct c as [sch tok]; cbn in Ht; subst tok;
        (split; [reflexivity|]); (split; [exact Hl|]); (split; [exact Hs|]);
        exists m; auto.
Qed.







Lemma apply_headers_get_other (hs : list (string * string)) (j : string)
  (l : header_list) :
  ~ In j (set_names hs) -> dict_get j (apply_headers hs l) = dict_get j l.
Proof.
  unfold apply_headers, set_names. revert l.
  induction hs as [|[k w] hs IH]; simpl; intros l Hj; [reflexivity|].
  rewrite IH by tauto. unfold setitem.
  apply setitem_raw_get_other. intros E. apply Hj. left. exact E.
Qed.

(** [setup_security_headers] changes nothing but the seven security
    headers: the status, the body and every other header (looked up in
    any letter case) are those of the response it was given. *)
Theorem setup_security_headers_preserves (r : Response) (k : string) :
  ~ In (lower k) (set_names security_headers) ->
  header_get k (headers (setup_security_headers r)) = header_get k (headers r) /\
  status_code (setup_security_headers r) = status_code r /\
  body (setup_security_headers r) = body r.
Proof.
  intros Hk. split; [|split; reflexivity].
  unfold header_get, setup_security_headers, with_headers. cbn [headers].
  apply apply_headers_get_other. exact Hk.
Qed.

Lemma setup_security_headers_preserves_witness :
  ~ In (lower "Content-Type") (set_names security_headers) /\
  (header_get "Content-Type"
     (headers (setup_security_headers (JSONResponse 200 JNull [])))
   = header_get "Content-Type" (headers (JSONResponse 200 JNull [])) /\
   status_code (setup_security_headers (JSONResponse 200 JNull []))
   = status_code (JSONResponse 200 JNull []) /\
   body (setup_security_headers (JSONResponse 200 JNull [])) = body (JSONResponse 200 JNull [])).
Proof.
  split; [vm_compute; intuition discriminate|].
  apply setup_security_headers_preserves. vm_compute. intuition discriminate.
Defined.

(** After [setup_security_headers], each of the seven security headers
    occurs exactly once, with its fixed value, however many entries with
    that name (in any letter case) the response carried before. *)
Theorem setup_security_headers_once (r : Response) :
  Forall (fun kv => entries (lower (fst kv)) (headers (setup_security_headers r))
                    = [(lower (fst kv), snd kv)]) security_headers.
Proof.
  exact (apply_headers_all_set security_headers (headers r) security_headers_nodup).
Qed.



(** An [Authorization] header whose scheme is not bearer (in any letter
    case) is ignored: on every path the answer is the one to a request
    without the header. *)
Theorem non_bearer_scheme_ignored (env : string -> option string) (db : AsyncSession)
  (now : Z) (p sch : string) (tok : token) (lim : option Z) :
  lower sch <> "bearer" ->
  app env db now (mkRequest p (Some (sch, tok)) lim) = app env db now (mkRequest p None lim).
Proof.
  intros Hs. apply String.eqb_neq in Hs.
  assert (Hb : http_bearer (Some (sch, tok)) = None)
    by (unfold http_bearer; rewrite Hs; destruct (_ || _); reflexivity).
  unfold app, router. cbn [path authorization]. rewrite Hb. reflexivity.
Qed.

Lemma non_bearer_scheme_ignored_witness :
  lower "Basic" <> "bearer" /\
  app env0 [] 1500 (mkRequest "/api/v1/secure" (Some ("Basic", good_token)) None)
  = app env0 [] 1500 (mkRequest "/api/v1/secure" None None).
Proof.
  split; [vm_compute; discriminate|].
  apply non_bearer_scheme_ignored. vm_compute. discriminate.
Defined.

Ltac router_case :=
  first [ left; eexists; reflexivity
        | right; left; reflexivity
        | right; right; left; reflexivity
        | right; right; right; eexists; split; [reflexivity|intros ? ? ?; discriminate] ].

(** What the router can produce: a 200 JSON response, the credentials
    exception, the 404 exception, or an exception that is not an
    [HTTPException] (the [AttributeError] of a handler given no user, or
    what [int()] raised in jose). *)
Lemma router_outcome (env : string -> option string) (db : AsyncSession) (now : Z)
  (req : Request) :
  (exists b, router env db now req = Ok (JSONResponse 200 b [])) \/
  router env db now req = Raise credentials_exception \/
  router env db now req = Raise (HTTPException 404 "Not Found" []) \/
  (exists e, router env db now req = Raise e /\ forall st d hs, e <> HTTPException st d hs).
Proof.
  unfold router.
  destruct (get_current_user (SECRET_KEY env) now (http_bearer (authorization req)) db)
    as [cu|e] eqn:Eg.
  - repeat match goal with |- context [if ?b then _ else _] => destruct b end;
      cbn [bind]; try destruct cu; cbn [bind hello_world secure_endpoint
                                        get_current_user_info get_audit_log];
      router_case.
  - apply get_current_user_raise in Eg as [-> | [sch [payload [_ [_ [_ [m [-> | ->]]]]]]]];
      repeat match goal with |- context [if ?b then _ else _] => destruct b end;
      cbn [bind]; router_case.
Qed.

(** A 500 response is always the generic [{"detail": "Internal server
    error"}] whose only modelled header is the JSON content type: it
    reveals nothing of the exception behind it. *)
Theorem app_500_generic (env : string -> option string) (db : AsyncSession)
  (now : Z) (req : Request) :
  status_code (app env db now req) = 500 ->
  app env db now req
  = mkResponse 500 [("content-type", "application/json")]
      (JObj [("detail", JStr "Internal server error")]).
Proof.
  unfold app.
  destruct (router_outcome env db now req) as [[b E]|[E|[E|[e [E He]]]]]; rewrite E.
  - cbn. discriminate.
  - cbn. discriminate.
  - cbn. discriminate.
  - destruct e; [exfalso; eapply He; reflexivity|..]; reflexivity.
Qed.

Lemma app_500_generic_witness :
  status_code (app env0 [] 1500 (mkRequest "/api/v1/users/me" None None)) = 500 /\
  app env0 [] 1500 (mkRequest "/api/v1/users/me" None None)
  = mkResponse 500 [("content-type", "application/json")]
      (JObj [("detail", JStr "Internal server error")]).
Proof.
  split; [vm_compute; reflexivity|].
  apply app_500_generic. vm_compute. reflexivity.
Defined.


